(** * ClinkTop: the CameraLink top-level register map

    A shallow embedding of [python/surf/protocols/clink/_ClinkTop.py].
    The Python class [ClinkTop] derives from [pr.Device]; its constructor
    assembles a list of child nodes (remote variables, remote commands and
    nested devices) and its three reset methods all call the [CntRst]
    command.

    The constructor is written in a small state-and-exception monad: the
    state is the device under construction ([self]), the only exception
    the constructor's own code can raise is Python's [IndexError], from
    [serial[i]] and [camType[i]]. *)

From Stdlib Require Import ZArith String List Bool Lia DecimalString.
Import ListNotations.

Open Scope string_scope.
Open Scope Z_scope.
Open Scope list_scope.

(** ** The framework vocabulary used by the file ([import pyrogue as pr]) *)

Module pr.

(** Access modes and value bases that appear as keyword arguments. *)
Inductive Mode := RW | RO | WO.
Inductive Base := Bool | UInt | Int.

(** The register file behind a device: 32-bit words addressed by byte
    offset, together with the log of field writes issued so far. *)
Definition Mem := Z -> Z.

Inductive Access :=
| Write (offset bitOffset bitSize value : Z).

Record Hw := { mem : Mem; log : list Access }.

(** Replace bits [bitOffset .. bitOffset+bitSize) of the word [w] by the
    low [bitSize] bits of [v]; every other bit of [w] is kept. *)
Definition set_bits (w bitOffset bitSize v : Z) : Z :=
  Z.lor (Z.ldiff w (Z.shiftl (Z.ones bitSize) bitOffset))
        (Z.shiftl (Z.land v (Z.ones bitSize)) bitOffset).

Definition get_bits (w bitOffset bitSize : Z) : Z :=
  Z.land (Z.shiftr w bitOffset) (Z.ones bitSize).

(** Modelled from the spec: the access engine's field write, which is not
    part of this file.  Section 5 requires "bit-level write isolation,
    not whole-register overwrite": a write to a field touches the bits
    of that field in the register at its offset and nothing else. *)
Definition set (offset bitOffset bitSize v : Z) (hw : Hw) : Hw :=
  {| mem := fun a => if a =? offset
                     then set_bits (mem hw a) bitOffset bitSize v
                     else mem hw a;
     log := log hw ++ [Write offset bitOffset bitSize v] |}.

Definition get (offset bitOffset bitSize : Z) (hw : Hw) : Z :=
  get_bits (mem hw offset) bitOffset bitSize.

Module BaseCommand.
(** Modelled from the spec: [pr.BaseCommand.toggle], which is not part
    of this file.  Section 3: "toggle semantics: write 1 then write 0
    to the same bit". *)
Definition toggle (offset bitOffset bitSize : Z) (hw : Hw) : Hw :=
  set offset bitOffset bitSize 0 (set offset bitOffset bitSize 1 hw).
End BaseCommand.

(** Keyword arguments of [pr.RemoteVariable] as this file writes them.
    A keyword the call does not pass is [None]. *)
Module Var.
Record kwargs := {
  name         : string;
  description  : string;
  offset       : Z;
  bitSize      : Z;
  bitOffset    : Z;
  base         : option Base;
  units        : option string;
  disp         : option string;
  mode         : Mode;
  pollInterval : option Z
}.
End Var.

(** Keyword arguments of [pr.RemoteCommand].  [function] is the callable
    run when the command is invoked; it receives the command's own
    location. *)
Module Cmd.
Record kwargs := {
  name         : string;
  description  : string;
  offset       : Z;
  bitSize      : Z;
  bitOffset    : Z;
  function     : Z -> Z -> Z -> Hw -> Hw
}.
End Cmd.

End pr.

(** ** Nested devices ([surf.protocols.clink as cl], [surf.xilinx as xil])

    Both builders are opaque here: a nested device is recorded as the
    constructor call that produced it. *)

Module cl.
Record ClinkChannel (Serial CamType : Type) := {
  name    : string;
  offset  : Z;
  serial  : Serial;
  camType : option CamType
}.
Arguments name {Serial CamType} _.
Arguments offset {Serial CamType} _.
Arguments serial {Serial CamType} _.
Arguments camType {Serial CamType} _.
End cl.

Module xil.
Record ClockManager := {
  name   : string;
  offset : Z;
  type   : string;
  expand : bool
}.
End xil.

(** [str(i)] for a loop index, as used by the f-strings. *)
Definition str (i : nat) : string := NilZero.string_of_uint (Nat.to_uint i).

Section ClinkTop.

(** A serial-port handle and a camera-type identifier are arbitrary
    Python objects; Python's [None] is [None]. *)
Context {Serial CamType : Type}.

Inductive Node :=
| RemoteVariable (kw : pr.Var.kwargs)
| RemoteCommand  (kw : pr.Cmd.kwargs)
| ClinkChannel   (kw : cl.ClinkChannel Serial CamType)
| ClockManager   (kw : xil.ClockManager).

Definition node_name (n : Node) : string :=
  match n with
  | RemoteVariable kw => pr.Var.name kw
  | RemoteCommand kw  => pr.Cmd.name kw
  | ClinkChannel kw   => cl.name kw
  | ClockManager kw   => xil.name kw
  end.

Definition node_offset (n : Node) : Z :=
  match n with
  | RemoteVariable kw => pr.Var.offset kw
  | RemoteCommand kw  => pr.Cmd.offset kw
  | ClinkChannel kw   => cl.offset kw
  | ClockManager kw   => xil.offset kw
  end.

(** The device under construction: [pr.Device] keeps its children in
    insertion order. *)
Record Device := {
  name        : string;
  description : string;
  nodes       : list Node
}.

Inductive Exn := IndexError | AttributeError | TypeError.

(** *** The construction monad *)

Definition M (A : Type) : Type := Device -> Exn + (A * Device).

Definition ret {A} (a : A) : M A := fun self => inr (a, self).

Definition bind {A B} (m : M A) (k : A -> M B) : M B :=
  fun self =>
    match m self with
    | inl e => inl e
    | inr (a, self') => k a self'
    end.

Definition raise {A} (e : Exn) : M A := fun _ => inl e.

Notation "x <- m ;; k" := (bind m (fun x => k))
  (at level 61, m at next level, right associativity).
Notation "m ;; k" := (bind m (fun _ => k))
  (at level 61, right associativity).

(** [self.add(node)] *)
Definition add (n : Node) : M unit :=
  fun self =>
    inr (tt, {| name := name self;
                description := description self;
                nodes := nodes self ++ [n] |}).

(** [l[i]] for a non-negative index: [IndexError] past the end. *)
Definition getitem {A} (l : list A) (i : nat) : M A :=
  match nth_error l i with
  | Some x => ret x
  | None => raise IndexError
  end.

(** [for i in range(n): body] *)
Fixpoint for_each (l : list nat) (body : nat -> M unit) : M unit :=
  match l with
  | [] => ret tt
  | i :: l' => body i ;; for_each l' body
  end.

Definition range (n : nat) : list nat := seq 0 n.

(** Modelled from the spec: [pr.Device.addRemoteVariables], which is not
    part of this file.  Section 3: "a FieldDescriptor template replicated
    count times with a fixed stride added to byteOffset per instance;
    instance names are indexed". *)
Definition addRemoteVariables (kw : pr.Var.kwargs) (number : nat) (stride : Z)
  : M unit :=
  for_each (range number) (fun i =>
    add (RemoteVariable
      {| pr.Var.name         := (pr.Var.name kw ++ "[" ++ str i ++ "]")%string;
         pr.Var.description  := pr.Var.description kw;
         pr.Var.offset       := pr.Var.offset kw + Z.of_nat i * stride;
         pr.Var.bitSize      := pr.Var.bitSize kw;
         pr.Var.bitOffset    := pr.Var.bitOffset kw;
         pr.Var.base         := pr.Var.base kw;
         pr.Var.units        := pr.Var.units kw;
         pr.Var.disp         := pr.Var.disp kw;
         pr.Var.mode         := pr.Var.mode kw;
         pr.Var.pollInterval := pr.Var.pollInterval kw |})).

(** *** [ClinkTop.__init__], statement by statement *)

Definition init_body (serial : list (option Serial))
                     (camType : list (option CamType)) : M unit :=
  add (RemoteVariable
    {| pr.Var.name         := "ChanCount";
       pr.Var.description  := "Supported channels";
       pr.Var.offset       := 0x00;
       pr.Var.bitSize      := 4;
       pr.Var.bitOffset    := 0x00;
       pr.Var.base         := None;
       pr.Var.units        := None;
       pr.Var.disp         := None;
       pr.Var.mode         := pr.RO;
       pr.Var.pollInterval := None |}) ;;

  add (RemoteCommand
    {| pr.Cmd.name         := "ResetPll";
       pr.Cmd.description  := "Camera link channel PLL reset";
       pr.Cmd.offset       := 0x04;
       pr.Cmd.bitSize      := 1;
       pr.Cmd.bitOffset    := 0;
       pr.Cmd.function     := pr.BaseCommand.toggle |}) ;;

  add (RemoteCommand
    {| pr.Cmd.name         := "ResetFsm";
       pr.Cmd.description  := "Camera link channel FSM reset";
       pr.Cmd.offset       := 0x04;
       pr.Cmd.bitSize      := 1;
       pr.Cmd.bitOffset    := 1;
       pr.Cmd.function     := pr.BaseCommand.toggle |}) ;;

  add (RemoteCommand
    {| pr.Cmd.name         := "CntRst";
       pr.Cmd.description  := "";
       pr.Cmd.offset       := 0x04;
       pr.Cmd.bitSize      := 1;
       pr.Cmd.bitOffset    := 2;
       pr.Cmd.function     := pr.BaseCommand.toggle |}) ;;

  add (RemoteVariable
    {| pr.Var.name         := "LinkLockedA";
       pr.Var.description  := "Camera link channel locked status";
       pr.Var.offset       := 0x10;
       pr.Var.bitSize      := 1;
       pr.Var.bitOffset    := 0;
       pr.Var.base         := Some pr.Bool;
       pr.Var.units        := None;
       pr.Var.disp         := None;
       pr.Var.mode         := pr.RO;
       pr.Var.pollInterval := Some 1 |}) ;;

  add (RemoteVariable
    {| pr.Var.name         := "LinkLockedB";
       pr.Var.description  := "Camera link channel locked status";
       pr.Var.offset       := 0x10;
       pr.Var.bitSize      := 1;
       pr.Var.bitOffset    := 1;
       pr.Var.base         := Some pr.Bool;
       pr.Var.units        := None;
       pr.Var.disp         := None;
       pr.Var.mode         := pr.RO;
       pr.Var.pollInterval := Some 1 |}) ;;

  add (RemoteVariable
    {| pr.Var.name         := "LinkLockedC";
       pr.Var.description  := "Camera link channel locked status";
       pr.Var.offset       := 0x10;
       pr.Var.bitSize      := 1;
       pr.Var.bitOffset    := 2;
       pr.Var.base         := Some pr.Bool;
       pr.Var.units        := None;
       pr.Var.disp         := None;
       pr.Var.mode         := pr.RO;
       pr.Var.pollInterval := Some 1 |}) ;;

  add (RemoteVariable
    {| pr.Var.name         := "LinkLockedCntA";
       pr.Var.description  := "Camera link channel locked status counter";
       pr.Var.offset       := 0x10;
       pr.Var.bitSize      := 8;
       pr.Var.bitOffset    := 8;
       pr.Var.base         := None;
       pr.Var.units        := None;
       pr.Var.disp         := Some "{}";
       pr.Var.mode         := pr.RO;
       pr.Var.pollInterval := Some 1 |}) ;;

  add (RemoteVariable
    {| pr.Var.name         := "LinkLockedCntB";
       pr.Var.description  := "Camera link channel locked status counter";
       pr.Var.offset       := 0x10;
       pr.Var.bitSize      := 8;
       pr.Var.bitOffset    := 16;
       pr.Var.base         := None;
       pr.Var.units        := None;
       pr.Var.disp         := Some "{}";
       pr.Var.mode         := pr.RO;
       pr.Var.pollInterval := Some 1 |}) ;;

  add (RemoteVariable
    {| pr.Var.name         := "LinkLockedCntC";
       pr.Var.description  := "Camera link channel locked status counter";
       pr.Var.offset       := 0x10;
       pr.Var.bitSize      := 8;
       pr.Var.bitOffset    := 24;
       pr.Var.base         := None;
       pr.Var.units        := None;
       pr.Var.disp         := Some "{}";
       pr.Var.mode         := pr.RO;
       pr.Var.pollInterval := Some 1 |}) ;;

  add (RemoteVariable
    {| pr.Var.name         := "ShiftCountA";
       pr.Var.description  := "Shift count for channel";
       pr.Var.offset       := 0x14;
       pr.Var.bitSize      := 3;
       pr.Var.bitOffset    := 0;
       pr.Var.base         := None;
       pr.Var.units        := None;
       pr.Var.disp         := None;
       pr.Var.mode         := pr.RO;
       pr.Var.pollInterval := Some 1 |}) ;;

  add (RemoteVariable
    {| pr.Var.name         := "ShiftCountB";
       pr.Var.description  := "Shift count for channel";
       pr.Var.offset       := 0x14;
       pr.Var.bitSize      := 3;
       pr.Var.bitOffset    := 8;
       pr.Var.base         := None;
       pr.Var.units        := None;
       pr.Var.disp         := None;
       pr.Var.mode         := pr.RO;
       pr.Var.pollInterval := Some 1 |}) ;;

  add (RemoteVariable
    {| pr.Var.name         := "ShiftCountC";
       pr.Var.description  := "Shift count for channel";
       pr.Var.offset       := 0x14;
       pr.Var.bitSize      := 3;
       pr.Var.bitOffset    := 16;
       pr.Var.base         := None;
       pr.Var.units        := None;
       pr.Var.disp         := None;
       pr.Var.mode         := pr.RO;
       pr.Var.pollInterval := Some 1 |}) ;;

  add (RemoteVariable
    {| pr.Var.name         := "DelayA";
       pr.Var.description  := "Precision delay for channel A";
       pr.Var.offset       := 0x18;
       pr.Var.bitSize      := 5;
       pr.Var.bitOffset    := 0;
       pr.Var.base         := None;
       pr.Var.units        := None;
       pr.Var.disp         := None;
       pr.Var.mode         := pr.RO;
       pr.Var.pollInterval := Some 1 |}) ;;

  add (RemoteVariable
    {| pr.Var.name         := "DelayB";
       pr.Var.description  := "Precision delay for channel B";
       pr.Var.offset       := 0x18;
       pr.Var.bitSize      := 5;
       pr.Var.bitOffset    := 8;
       pr.Var.base         := None;
       pr.Var.units        := None;
       pr.Var.disp         := None;
       pr.Var.mode         := pr.RO;
       pr.Var.pollInterval := Some 1 |}) ;;

  add (RemoteVariable
    {| pr.Var.name         := "DelayC";
       pr.Var.description  := "Precision delay for channel C";
       pr.Var.offset       := 0x18;
       pr.Var.bitSize      := 5;
       pr.Var.bitOffset    := 16;
       pr.Var.base         := None;
       pr.Var.units        := None;
       pr.Var.disp         := None;
       pr.Var.mode         := pr.RO;
       pr.Var.pollInterval := Some 1 |}) ;;

  addRemoteVariables
    {| pr.Var.name         := "ClkInFreq";
       pr.Var.description  := "Clock Input Freq";
       pr.Var.offset       := 0x01C;
       pr.Var.bitSize      := 32;
       pr.Var.bitOffset    := 0;
       pr.Var.base         := None;
       pr.Var.units        := Some "Hz";
       pr.Var.disp         := Some "{:d}";
       pr.Var.mode         := pr.RO;
       pr.Var.pollInterval := Some 1 |}
    3 4 ;;

  addRemoteVariables
    {| pr.Var.name         := "ClinkClkFreq";
       pr.Var.description  := "CameraLink Clock Freq";
       pr.Var.offset       := 0x028;
       pr.Var.bitSize      := 32;
       pr.Var.bitOffset    := 0;
       pr.Var.base         := None;
       pr.Var.units        := Some "Hz";
       pr.Var.disp         := Some "{:d}";
       pr.Var.mode         := pr.RO;
       pr.Var.pollInterval := Some 1 |}
    3 4 ;;

  addRemoteVariables
    {| pr.Var.name         := "ClinkClk7xFreq";
       pr.Var.description  := "CameraLink Clock x 7 Freq";
       pr.Var.offset       := 0x034;
       pr.Var.bitSize      := 32;
       pr.Var.bitOffset    := 0;
       pr.Var.base         := None;
       pr.Var.units        := Some "Hz";
       pr.Var.disp         := Some "{:d}";
       pr.Var.mode         := pr.RO;
       pr.Var.pollInterval := Some 1 |}
    3 4 ;;

  for_each (range 2) (fun i =>
    s <- getitem serial i ;;
    match s with
    | Some s_i =>
        c_i <- getitem camType i ;;
        add (ClinkChannel
          {| cl.name    := ("Ch[" ++ str i ++ "]")%string;
             cl.offset  := 0x100 + (Z.of_nat i * 0x100);
             cl.serial  := s_i;
             cl.camType := c_i |})
    | None => ret tt
    end) ;;

  for_each (range 3) (fun i =>
    add (ClockManager
      {| xil.name   := ("Pll[" ++ str i ++ "]")%string;
         xil.offset := 0x1000 + (Z.of_nat i * 0x1000);
         xil.type   := "MMCME2";
         xil.expand := false |})).

(** [ClinkTop(name=..., description=..., serial=..., camType=...)]:
    [super().__init__] creates the empty device, then the body runs.  An
    exception leaves no device behind.  Further keyword arguments go to
    [pr.Device] untouched and play no part in the body. *)
Definition ClinkTop (name description : string)
                    (serial : list (option Serial))
                    (camType : list (option CamType)) : Exn + Device :=
  match init_body serial camType
          {| name := name; description := description; nodes := [] |} with
  | inl e => inl e
  | inr (_, self) => inr self
  end.

(** The default arguments of the signature. *)
Definition default_name : string := "ClinkTop".
Definition default_description : string := "CameraLink module".
Definition default_serial : list (option Serial) := [None; None].
Definition default_camType : list (option CamType) := [None; None].

(** *** The reset methods *)

(** [self.<attr>]: the child of that name. *)
Definition getattr (self : Device) (attr : string) : Exn + Node :=
  match find (fun n => String.eqb (node_name n) attr) (nodes self) with
  | Some n => inr n
  | None => inl AttributeError
  end.

(** [node()]: a command runs its function on its own field; the other
    nodes are not callable. *)
Definition call (n : Node) (hw : pr.Hw) : Exn + pr.Hw :=
  match n with
  | RemoteCommand kw =>
      inr (pr.Cmd.function kw (pr.Cmd.offset kw) (pr.Cmd.bitOffset kw)
                           (pr.Cmd.bitSize kw) hw)
  | _ => inl TypeError
  end.

Definition invoke (self : Device) (attr : string) (hw : pr.Hw)
  : Exn + pr.Hw :=
  match getattr self attr with
  | inl e => inl e
  | inr n => call n hw
  end.

Definition hardReset (self : Device) : pr.Hw -> Exn + pr.Hw :=
  invoke self "CntRst".

Definition softReset (self : Device) : pr.Hw -> Exn + pr.Hw :=
  invoke self "CntRst".

Definition countReset (self : Device) : pr.Hw -> Exn + pr.Hw :=
  invoke self "CntRst".

(** *** Views of a built tree *)

Definition variables (self : Device) : list pr.Var.kwargs :=
  flat_map (fun n => match n with RemoteVariable kw => [kw] | _ => [] end)
           (nodes self).

Definition commands (self : Device) : list pr.Cmd.kwargs :=
  flat_map (fun n => match n with RemoteCommand kw => [kw] | _ => [] end)
           (nodes self).

Definition channels (self : Device) : list (cl.ClinkChannel Serial CamType) :=
  flat_map (fun n => match n with ClinkChannel kw => [kw] | _ => [] end)
           (nodes self).

Definition clock_managers (self : Device) : list xil.ClockManager :=
  flat_map (fun n => match n with ClockManager kw => [kw] | _ => [] end)
           (nodes self).

(** The children placed at a given offset. *)
Definition nodes_at (offset : Z) (self : Device) : list Node :=
  filter (fun n => node_offset n =? offset) (nodes self).

End ClinkTop.

(** A field in the sense of the data model: a named bit range of the
    register at [byteOffset].  Variables and commands are fields, nested
    devices are not. *)
Module Field.
Record t := {
  name       : string;
  byteOffset : Z;
  bitOffset  : Z;
  bitWidth   : Z
}.
End Field.

Section Views.

Context {Serial CamType : Type}.

Definition fields (self : @Device Serial CamType) : list Field.t :=
  flat_map (fun n =>
    match n with
    | RemoteVariable kw =>
        [ {| Field.name := pr.Var.name kw;
             Field.byteOffset := pr.Var.offset kw;
             Field.bitOffset := pr.Var.bitOffset kw;
             Field.bitWidth := pr.Var.bitSize kw |} ]
    | RemoteCommand kw =>
        [ {| Field.name := pr.Cmd.name kw;
             Field.byteOffset := pr.Cmd.offset kw;
             Field.bitOffset := pr.Cmd.bitOffset kw;
             Field.bitWidth := pr.Cmd.bitSize kw |} ]
    | _ => []
    end) (nodes self).

(** The poll interval a node was given.  Only [pr.RemoteVariable] calls
    pass one; no [pr.RemoteCommand] call in the file does. *)
Definition node_pollInterval (n : @Node Serial CamType) : option Z :=
  match n with
  | RemoteVariable kw => pr.Var.pollInterval kw
  | _ => None
  end.

(** The tree built from the signature's default arguments. *)
Definition default_device : @Device Serial CamType :=
  match ClinkTop default_name default_description
                 default_serial default_camType with
  | inr self => self
  | inl _ => {| name := default_name;
                description := default_description;
                nodes := [] |}
  end.

(** The variables produced by [addRemoteVariables]: their names carry an
    index in brackets. *)
Definition array_elements (self : @Device Serial CamType)
  : list pr.Var.kwargs :=
  filter (fun kw => match index 0 "[" (pr.Var.name kw) with
                    | Some _ => true
                    | None => false
                    end) (variables self).

Definition polled (n : @Node Serial CamType) : bool :=
  match node_pollInterval n with
  | Some _ => true
  | None => false
  end.

End Views.

(** Bit [k] lies in the range of field [f]. *)
Definition covers (f : Field.t) (k : Z) : Prop :=
  Field.bitOffset f <= k < Field.bitOffset f + Field.bitWidth f.

(** Boolean form of "[f] and [g] do not collide": different registers, or
    one bit range ends before the other starts. *)
Definition apart (f g : Field.t) : bool :=
  negb (Field.byteOffset f =? Field.byteOffset g)
  || (Field.bitOffset f + Field.bitWidth f <=? Field.bitOffset g)
  || (Field.bitOffset g + Field.bitWidth g <=? Field.bitOffset f).

Fixpoint pairwise {A} (R : A -> A -> bool) (l : list A) : bool :=
  match l with
  | [] => true
  | x :: l' => forallb (R x) l' && pairwise R l'
  end.

(** A tree used to exercise the theorems: slot 0 present, slot 1 absent. *)
Definition sample_serial : list (option nat) := [Some 7%nat; None].
Definition sample_camType : list (option string) := [Some "Opal1000"; None].

Definition sample_device : @Device nat string :=
  Eval cbv -[pr.BaseCommand.toggle] in
  match ClinkTop default_name default_description
                 sample_serial sample_camType with
  | inr self => self
  | inl _ => default_device
  end.

(** The same with no camera type given for the present slot. *)
Definition sample_camType_absent : list (option string) := [None; None].

Definition sample_device_untyped : @Device nat string :=
  Eval cbv -[pr.BaseCommand.toggle] in
  match ClinkTop default_name default_description
                 sample_serial sample_camType_absent with
  | inr self => self
  | inl _ => default_device
  end.

Definition idle : pr.Hw := {| pr.mem := fun _ => 0; pr.log := [] |}.

(** *** Further views, for the shape of the address map *)

Section Shape.

Context {Serial CamType : Type}.

(** Variables and commands sit in the device's own register block; the
    other children are nested devices with a base offset of their own. *)
Definition is_register (n : @Node Serial CamType) : bool :=
  match n with
  | RemoteVariable _ | RemoteCommand _ => true
  | ClinkChannel _ | ClockManager _ => false
  end.

Definition registers (self : @Device Serial CamType) : list Node :=
  filter is_register (nodes self).

(** The base offsets of the nested devices, in child order. *)
Definition subdevice_offsets (self : @Device Serial CamType) : list Z :=
  flat_map (fun n => if is_register n then [] else [node_offset n])
           (nodes self).

End Shape.

(** Inputs that agree with the sample on what the constructor reads: a
    third serial slot, and no camera-type entry for the absent slot 1. *)
Definition sample_serial_long : list (option nat) :=
  [Some 7%nat; None; Some 9%nat].
Definition sample_camType_short : list (option string) := [Some "Opal1000"].

(** ** Bit-level facts about field writes *)

Lemma testbit_set_bits (w bo bs v k : Z) :
  0 <= bo -> 0 <= bs -> 0 <= k ->
  Z.testbit (pr.set_bits w bo bs v) k =
  if (bo <=? k) && (k <? bo + bs) then Z.testbit v (k - bo) else Z.testbit w k.
Proof.
  intros Hbo Hbs Hk. unfold pr.set_bits.
  rewrite Z.lor_spec, Z.ldiff_spec, !Z.shiftl_spec by assumption.
  rewrite Z.land_spec.
  destruct (Z.leb_spec bo k) as [Hle | Hlt]; simpl.
  - rewrite !Z.testbit_ones by assumption.
    replace (0 <=? k - bo) with true by (symmetry; apply Z.leb_le; lia).
    simpl.
    destruct (Z.ltb_spec (k - bo) bs) as [H1 | H1];
      destruct (Z.ltb_spec k (bo + bs)) as [H2 | H2]; try lia; simpl.
    + now rewrite andb_false_r, andb_true_r.
    + now rewrite andb_true_r, andb_false_r, orb_false_r.
  - rewrite !(Z.testbit_neg_r _ (k - bo)) by lia.
    simpl. now rewrite andb_true_r, orb_false_r.
Qed.

Lemma get_bits_ext (w w' bo bs : Z) :
  0 <= bo -> 0 <= bs ->
  (forall k, bo <= k < bo + bs -> Z.testbit w' k = Z.testbit w k) ->
  pr.get_bits w' bo bs = pr.get_bits w bo bs.
Proof.
  intros Hbo Hbs Hext. unfold pr.get_bits.
  apply Z.bits_inj'. intros k Hk.
  rewrite !Z.land_spec, !Z.shiftr_spec, !Z.testbit_ones by assumption.
  destruct (Z.ltb_spec k bs) as [Hlt | Hge].
  - rewrite Hext by lia. reflexivity.
  - now rewrite !andb_false_r.
Qed.

(** What a toggle leaves behind: two writes in the log, the field's own
    bits cleared, every other bit of every register as it was. *)
Lemma toggle_log off bo bs hw :
  pr.log (pr.BaseCommand.toggle off bo bs hw) =
  pr.log hw ++ [pr.Write off bo bs 1; pr.Write off bo bs 0].
Proof.
  unfold pr.BaseCommand.toggle, pr.set. simpl.
  now rewrite <- app_assoc.
Qed.

Lemma toggle_mem_bit off bo bs hw a k :
  0 <= bo -> 0 <= bs -> 0 <= k ->
  Z.testbit (pr.mem (pr.BaseCommand.toggle off bo bs hw) a) k =
  if (a =? off) && (bo <=? k) && (k <? bo + bs)
  then false
  else Z.testbit (pr.mem hw a) k.
Proof.
  intros Hbo Hbs Hk. unfold pr.BaseCommand.toggle, pr.set. simpl.
  destruct (a =? off); simpl; [|reflexivity].
  rewrite testbit_set_bits by assumption.
  destruct ((bo <=? k) && (k <? bo + bs)) eqn:E.
  - apply Z.testbit_0_l.
  - rewrite testbit_set_bits by assumption. now rewrite E.
Qed.

Lemma toggle_get_other off bo bs hw off' bo' bs' :
  0 <= bo -> 0 <= bs -> 0 <= bo' -> 0 <= bs' ->
  off' <> off \/ bo' + bs' <= bo \/ bo + bs <= bo' ->
  pr.get off' bo' bs' (pr.BaseCommand.toggle off bo bs hw) =
  pr.get off' bo' bs' hw.
Proof.
  intros Hbo Hbs Hbo' Hbs' Haway. unfold pr.get.
  apply get_bits_ext; try assumption.
  intros k Hk. rewrite toggle_mem_bit by lia.
  destruct (Z.eqb_spec off' off) as [Heq | Hne]; simpl; [|reflexivity].
  destruct (Z.leb_spec bo k); simpl; [|reflexivity].
  destruct (Z.ltb_spec k (bo + bs)); simpl; [lia | reflexivity].
Qed.

Lemma toggle_get_self off bo bs hw :
  0 <= bo -> 0 <= bs ->
  pr.get off bo bs (pr.BaseCommand.toggle off bo bs hw) = 0.
Proof.
  intros Hbo Hbs. unfold pr.get, pr.get_bits.
  apply Z.bits_inj'. intros k Hk.
  rewrite Z.land_spec, Z.shiftr_spec, Z.testbit_ones, Z.testbit_0_l
    by assumption.
  rewrite toggle_mem_bit by lia. rewrite Z.eqb_refl. simpl.
  replace (bo <=? k + bo) with true by (symmetry; apply Z.leb_le; lia).
  simpl.
  destruct (Z.ltb_spec (k + bo) (bo + bs)); destruct (Z.ltb_spec k bs);
    try lia; simpl; now rewrite ?andb_false_r.
Qed.

(** ** A list fact: a pairwise check speaks for every two positions *)

Lemma pairwise_nth {A} (R : A -> A -> bool) (l : list A) :
  (forall x y, R x y = R y x) ->
  pairwise R l = true ->
  forall i j x y, i <> j ->
    nth_error l i = Some x -> nth_error l j = Some y -> R x y = true.
Proof.
  intros Hsym. induction l as [|a l IH]; intros Hp i j x y Hij Hi Hj.
  - destruct i; discriminate.
  - simpl in Hp. apply andb_prop in Hp as [Ha Hl].
    rewrite forallb_forall in Ha.
    destruct i as [|i], j as [|j]; simpl in Hi, Hj.
    + congruence.
    + injection Hi as <-. apply Ha. eapply nth_error_In; eassumption.
    + injection Hj as <-. rewrite Hsym. apply Ha.
      eapply nth_error_In; eassumption.
    + apply (IH Hl i j); congruence.
Qed.

Lemma apart_sym f g : apart f g = apart g f.
Proof.
  unfold apart. rewrite (Z.eqb_sym (Field.byteOffset f)).
  destruct (negb _); simpl; [reflexivity | apply orb_comm].
Qed.

Lemma apart_disjoint f g k :
  apart f g = true -> Field.byteOffset f = Field.byteOffset g ->
  ~ (covers f k /\ covers g k).
Proof.
  unfold apart, covers. intros Ha Heq [Hf Hg].
  rewrite Heq, Z.eqb_refl in Ha. simpl in Ha.
  apply orb_prop in Ha as [Ha | Ha]; apply Z.leb_le in Ha; lia.
Qed.

(** ** The built tree *)

Section Properties.

Context {Serial CamType : Type}.

(** Case analysis on the two slots the constructor reads: afterwards the
    constructor has either raised or produced an explicit tree. *)
Ltac build_cases serial camType H :=
  destruct serial as [|[?s|] [|[?s|] ?rest]];
  destruct camType as [|?c [|?c ?crest]];
  cbv -[pr.BaseCommand.toggle] in H; try discriminate H;
  injection H as <-.

(** Variables, commands and clock managers are the same in every tree the
    constructor returns. *)
Lemma static_part n ds (serial : list (option Serial))
    (camType : list (option CamType)) (d : @Device Serial CamType) :
  ClinkTop n ds serial camType = inr d ->
  variables d = variables (@default_device Serial CamType) /\
  commands d = commands (@default_device Serial CamType) /\
  clock_managers d = clock_managers (@default_device Serial CamType) /\
  fields d = fields (@default_device Serial CamType).
Proof.
  intros H. build_cases serial camType H; repeat split; reflexivity.
Qed.

(** The constructor passes [name] and [description] on unchanged. *)
Lemma built_name n ds (serial : list (option Serial))
    (camType : list (option CamType)) (d : @Device Serial CamType) :
  ClinkTop n ds serial camType = inr d ->
  name d = n /\ description d = ds.
Proof.
  intros H. build_cases serial camType H; split; reflexivity.
Qed.

(** Child names are pairwise distinct, so [self.add] never meets a name
    twice and attribute lookup by name is unambiguous. *)
Lemma built_names_distinct n ds (serial : list (option Serial))
    (camType : list (option CamType)) (d : @Device Serial CamType) :
  ClinkTop n ds serial camType = inr d ->
  NoDup (map node_name (nodes d)).
Proof.
  intros H.
  assert (Hdec : forall l : list string,
            (fix nodup (l : list string) : bool :=
               match l with
               | [] => true
               | x :: l' =>
                   negb (existsb (String.eqb x) l') && nodup l'
               end) l = true -> NoDup l).
  { induction l as [|x l IH]; intros Hb; constructor.
    - apply andb_prop in Hb as [Hx _]. intros Hin.
      apply negb_true_iff in Hx.
      assert (existsb (String.eqb x) l = true) as Hex
        by (apply existsb_exists; exists x; split;
            [assumption | apply String.eqb_refl]).
      congruence.
    - apply IH. now apply andb_prop in Hb as [_ Hb]. }
  build_cases serial camType H; apply Hdec; reflexivity.
Qed.

(** *** Register layout *)

(** C3: every field of a built tree ends within the 32-bit register word,
    and two distinct fields of the same register share no bit; at offset
    0x10 the fields are the 1-bit ranges at 0, 1, 2 and the 8-bit ranges
    at 8, 16, 24. *)
Theorem fields_fit_and_are_disjoint n ds (serial : list (option Serial))
    (camType : list (option CamType)) (d : @Device Serial CamType) :
  ClinkTop n ds serial camType = inr d ->
  (forall f, In f (fields d) ->
     0 <= Field.bitOffset f /\ 0 < Field.bitWidth f /\
     Field.bitOffset f + Field.bitWidth f <= 32) /\
  (forall i j f g, i <> j ->
     nth_error (fields d) i = Some f -> nth_error (fields d) j = Some g ->
     Field.byteOffset f = Field.byteOffset g ->
     forall k, ~ (covers f k /\ covers g k)) /\
  map (fun f => (Field.bitOffset f, Field.bitWidth f))
      (filter (fun f => Field.byteOffset f =? 0x10) (fields d)) =
  [(0, 1); (1, 1); (2, 1); (8, 8); (16, 8); (24, 8)].
Proof.
  intros H. destruct (static_part _ _ _ _ _ H) as (_ & _ & _ & ->).
  split; [|split].
  - assert (Hb : forallb (fun f => (0 <=? Field.bitOffset f)
                                   && (0 <? Field.bitWidth f)
                                   && (Field.bitOffset f + Field.bitWidth f
                                       <=? 32))
                         (fields (@default_device Serial CamType)) = true)
      by reflexivity.
    rewrite forallb_forall in Hb. intros f Hf.
    specialize (Hb f Hf).
    apply andb_prop in Hb as [Hb H3]. apply andb_prop in Hb as [H1 H2].
    apply Z.leb_le in H1, H3. apply Z.ltb_lt in H2. auto.
  - intros i j f g Hij Hi Hj Heq k.
    apply apart_disjoint; [|assumption].
    apply (pairwise_nth apart (fields (@default_device Serial CamType))
             apart_sym) with (i := i) (j := j); auto.
  - reflexivity.
Qed.

(** C4: the indexed variables of a built tree are exactly the nine
    elements of ClkInFreq, ClinkClkFreq and ClinkClk7xFreq, three each, at
    0x1C, 0x28 and 0x34 onwards in steps of 4 bytes; each is a 32-bit
    read-only variable with unit Hz, display format {:d} and a poll
    interval, and no other variable carries a unit. *)
Theorem frequency_arrays n ds (serial : list (option Serial))
    (camType : list (option CamType)) (d : @Device Serial CamType) :
  ClinkTop n ds serial camType = inr d ->
  map (fun kw => (pr.Var.name kw, pr.Var.offset kw)) (array_elements d) =
  [ ("ClkInFreq[0]", 0x1C); ("ClkInFreq[1]", 0x20); ("ClkInFreq[2]", 0x24);
    ("ClinkClkFreq[0]", 0x28); ("ClinkClkFreq[1]", 0x2C);
    ("ClinkClkFreq[2]", 0x30);
    ("ClinkClk7xFreq[0]", 0x34); ("ClinkClk7xFreq[1]", 0x38);
    ("ClinkClk7xFreq[2]", 0x3C) ] /\
  (forall kw, In kw (array_elements d) ->
     pr.Var.bitSize kw = 32 /\ pr.Var.bitOffset kw = 0 /\
     pr.Var.mode kw = pr.RO /\ pr.Var.units kw = Some "Hz" /\
     pr.Var.disp kw = Some "{:d}" /\ pr.Var.pollInterval kw = Some 1) /\
  (forall kw, In kw (variables d) ->
     pr.Var.units kw <> None -> In kw (array_elements d)).
Proof.
  intros H. unfold array_elements.
  destruct (static_part _ _ _ _ _ H) as (-> & _).
  split; [reflexivity | split].
  - intros kw Hkw. cbv in Hkw.
    repeat (destruct Hkw as [<- | Hkw]; [repeat split; reflexivity|]).
    contradiction.
  - intros kw Hkw Hu. cbv in Hkw.
    repeat (destruct Hkw as [<- | Hkw];
            [first [ exfalso; apply Hu; reflexivity
                   | cbv; tauto ]|]).
    contradiction.
Qed.

(** C5: whatever the arguments, a built tree has exactly three clock
    managers, Pll[0..2] at 0x1000, 0x2000 and 0x3000, all of type MMCME2. *)
Theorem three_clock_managers n ds (serial : list (option Serial))
    (camType : list (option CamType)) (d : @Device Serial CamType) :
  ClinkTop n ds serial camType = inr d ->
  clock_managers d =
  [ {| xil.name := "Pll[0]"; xil.offset := 0x1000;
       xil.type := "MMCME2"; xil.expand := false |};
    {| xil.name := "Pll[1]"; xil.offset := 0x2000;
       xil.type := "MMCME2"; xil.expand := false |};
    {| xil.name := "Pll[2]"; xil.offset := 0x3000;
       xil.type := "MMCME2"; xil.expand := false |} ].
Proof.
  intros H. destruct (static_part _ _ _ _ _ H) as (_ & _ & -> & _).
  reflexivity.
Qed.

(** C6: a built tree has exactly three commands, ResetPll, ResetFsm and
    CntRst, all in the register at 0x04, one bit wide, at the distinct bits
    0, 1 and 2; each runs the toggle function, which writes 1 and then 0
    to the command's bit and leaves it cleared. *)
Theorem three_command_pulses n ds (serial : list (option Serial))
    (camType : list (option CamType)) (d : @Device Serial CamType) :
  ClinkTop n ds serial camType = inr d ->
  map (fun c => (pr.Cmd.name c, pr.Cmd.offset c,
                 pr.Cmd.bitOffset c, pr.Cmd.bitSize c)) (commands d) =
  [ ("ResetPll", 0x04, 0, 1); ("ResetFsm", 0x04, 1, 1);
    ("CntRst", 0x04, 2, 1) ] /\
  NoDup (map pr.Cmd.bitOffset (commands d)) /\
  (forall c, In c (commands d) ->
     pr.Cmd.function c = pr.BaseCommand.toggle) /\
  (forall c hw, In c (commands d) ->
     pr.log (pr.Cmd.function c (pr.Cmd.offset c) (pr.Cmd.bitOffset c)
                               (pr.Cmd.bitSize c) hw) =
     pr.log hw ++
       [ pr.Write (pr.Cmd.offset c) (pr.Cmd.bitOffset c) (pr.Cmd.bitSize c) 1;
         pr.Write (pr.Cmd.offset c) (pr.Cmd.bitOffset c) (pr.Cmd.bitSize c) 0 ]
     /\
     pr.get (pr.Cmd.offset c) (pr.Cmd.bitOffset c) (pr.Cmd.bitSize c)
            (pr.Cmd.function c (pr.Cmd.offset c) (pr.Cmd.bitOffset c)
                               (pr.Cmd.bitSize c) hw) = 0).
Proof.
  intros H. destruct (static_part _ _ _ _ _ H) as (_ & -> & _).
  split; [reflexivity | split; [|split]].
  - cbv [commands default_device map]. simpl.
    repeat (constructor; [simpl; intuition discriminate|]). constructor.
  - intros c Hc. cbv -[pr.BaseCommand.toggle] in Hc.
    repeat (destruct Hc as [<- | Hc]; [reflexivity|]). contradiction.
  - intros c hw Hc. cbv -[pr.BaseCommand.toggle] in Hc.
    repeat (destruct Hc as [<- | Hc];
            [split; [apply toggle_log | apply toggle_get_self; simpl; lia]|]).
    contradiction.
Qed.

(** C7: in a built tree the register at 0x10 holds exactly six variables
    and no command: LinkLockedA..C, boolean, one bit wide at bits 0, 1, 2,
    and LinkLockedCntA..C, eight bits wide at bits 8, 16, 24 with display
    format {}; all six are read-only and each has its own poll interval. *)
Theorem link_locked_register n ds (serial : list (option Serial))
    (camType : list (option CamType)) (d : @Device Serial CamType) :
  ClinkTop n ds serial camType = inr d ->
  map (fun kw => (pr.Var.name kw, pr.Var.bitOffset kw, pr.Var.bitSize kw,
                  pr.Var.base kw, pr.Var.disp kw, pr.Var.mode kw,
                  pr.Var.pollInterval kw))
      (filter (fun kw => pr.Var.offset kw =? 0x10) (variables d)) =
  [ ("LinkLockedA", 0, 1, Some pr.Bool, None, pr.RO, Some 1);
    ("LinkLockedB", 1, 1, Some pr.Bool, None, pr.RO, Some 1);
    ("LinkLockedC", 2, 1, Some pr.Bool, None, pr.RO, Some 1);
    ("LinkLockedCntA", 8, 8, None, Some "{}", pr.RO, Some 1);
    ("LinkLockedCntB", 16, 8, None, Some "{}", pr.RO, Some 1);
    ("LinkLockedCntC", 24, 8, None, Some "{}", pr.RO, Some 1) ] /\
  filter (fun c => pr.Cmd.offset c =? 0x10) (commands d) = [] /\
  map node_name (nodes_at 0x10 d) =
  [ "LinkLockedA"; "LinkLockedB"; "LinkLockedC";
    "LinkLockedCntA"; "LinkLockedCntB"; "LinkLockedCntC" ].
Proof.
  intros H. destruct (static_part _ _ _ _ _ H) as (-> & -> & _).
  split; [reflexivity | split; [reflexivity|]].
  build_cases serial camType H; reflexivity.
Qed.

(** C10: every poll interval in a built tree is 1; the polled nodes are
    the LinkLocked, LinkLockedCnt, ShiftCount and Delay variables and the
    nine frequency variables; ChanCount and the three commands have no
    poll interval. *)
Theorem poll_intervals n ds (serial : list (option Serial))
    (camType : list (option CamType)) (d : @Device Serial CamType) :
  ClinkTop n ds serial camType = inr d ->
  (forall nd p, In nd (nodes d) -> node_pollInterval nd = Some p -> p = 1) /\
  map node_name (filter polled (nodes d)) =
  [ "LinkLockedA"; "LinkLockedB"; "LinkLockedC";
    "LinkLockedCntA"; "LinkLockedCntB"; "LinkLockedCntC";
    "ShiftCountA"; "ShiftCountB"; "ShiftCountC";
    "DelayA"; "DelayB"; "DelayC";
    "ClkInFreq[0]"; "ClkInFreq[1]"; "ClkInFreq[2]";
    "ClinkClkFreq[0]"; "ClinkClkFreq[1]"; "ClinkClkFreq[2]";
    "ClinkClk7xFreq[0]"; "ClinkClk7xFreq[1]"; "ClinkClk7xFreq[2]" ] /\
  (forall nd, In nd (nodes d) ->
     node_name nd = "ChanCount" \/ (exists c, nd = RemoteCommand c) ->
     node_pollInterval nd = None) /\
  map pr.Var.pollInterval
      (filter (fun kw => String.eqb (pr.Var.name kw) "ChanCount")
              (variables d)) = [None].
Proof.
  intros H. split; [|split; [|split]].
  - intros nd p Hnd Hp.
    assert (Hv : forall kw, In kw (variables d) ->
                 pr.Var.pollInterval kw = Some p -> p = 1).
    { destruct (static_part _ _ _ _ _ H) as (-> & _).
      intros kw Hkw. cbv in Hkw.
      repeat (destruct Hkw as [<- | Hkw];
              [simpl; congruence|]).
      contradiction. }
    destruct nd as [kw | | |]; try discriminate Hp.
    apply (Hv kw); [|exact Hp].
    unfold variables. apply in_flat_map. exists (RemoteVariable kw).
    split; [assumption | now left].
  - build_cases serial camType H; reflexivity.
  - intros nd Hnd [Hname | [c ->]]; [|reflexivity].
    destruct nd as [kw | | |]; try reflexivity.
    assert (Hv : forall kw, In kw (variables d) ->
                 pr.Var.name kw = "ChanCount" ->
                 pr.Var.pollInterval kw = None).
    { destruct (static_part _ _ _ _ _ H) as (-> & _).
      intros kw' Hkw. cbv in Hkw.
      repeat (destruct Hkw as [<- | Hkw];
              [simpl; first [reflexivity | discriminate]|]).
      contradiction. }
    apply Hv; [|exact Hname].
    unfold variables. apply in_flat_map. exists (RemoteVariable kw).
    split; [assumption | now left].
  - destruct (static_part _ _ _ _ _ H) as (-> & _). reflexivity.
Qed.

(** *** Channel slots *)

(** C1: for a two-slot input the constructor returns a tree in which, for
    i = 0 and i = 1, the children at offset 0x100 + i*0x100 are the single
    channel Ch[i] built from (serial[i], camType[i]) when serial[i] is not
    None, and nothing when it is None.  With serial = [A, None] and
    camType = [X, None] the only channel is slot 0 with (A, X); with
    serial = [None, None] there is no channel. *)
Theorem channel_per_present_slot n ds (serial : list (option Serial))
    (camType : list (option CamType)) :
  length serial = 2%nat -> length camType = 2%nat ->
  exists d,
    ClinkTop n ds serial camType = inr d /\
    (forall i, (i < 2)%nat ->
       nodes_at (0x100 + Z.of_nat i * 0x100) d =
       match nth i serial None with
       | Some a =>
           [ ClinkChannel
               {| cl.name    := ("Ch[" ++ str i ++ "]")%string;
                  cl.offset  := 0x100 + Z.of_nat i * 0x100;
                  cl.serial  := a;
                  cl.camType := nth i camType None |} ]
       | None => []
       end) /\
    (forall A X, serial = [Some A; None] -> camType = [Some X; None] ->
       channels d =
       [ {| cl.name := "Ch[0]"; cl.offset := 0x100;
            cl.serial := A; cl.camType := Some X |} ]) /\
    (serial = [None; None] -> channels d = []).
Proof.
  intros Hs Hc.
  destruct serial as [|s0 [|s1 [|? ?]]]; try discriminate Hs.
  destruct camType as [|c0 [|c1 [|? ?]]]; try discriminate Hc.
  destruct s0 as [a0|], s1 as [a1|];
    (eexists; split; [cbv -[pr.BaseCommand.toggle]; reflexivity|]);
    (split; [intros [|[|i]] Hi; [reflexivity | reflexivity | lia]|]);
    (split; [intros A X HA HX; inversion HA; inversion HX; reflexivity
            | intros HN; inversion HN; reflexivity]).
Qed.

(** C9: which channels a built tree has is read off [serial] alone: the
    channels are Ch[i] at 0x100 + i*0x100 for exactly the i in 0, 1 with
    serial[i] not None, whatever camType holds; where serial[i] is present
    and camType[i] is None the channel is built all the same and receives
    None as its camType. *)
Theorem channel_presence_from_serial n ds (serial : list (option Serial))
    (camType : list (option CamType)) (d : @Device Serial CamType) :
  ClinkTop n ds serial camType = inr d ->
  map (fun kw => (cl.name kw, cl.offset kw, cl.serial kw)) (channels d) =
  flat_map (fun i =>
    match nth_error serial i with
    | Some (Some a) =>
        [ (("Ch[" ++ str i ++ "]")%string, 0x100 + Z.of_nat i * 0x100, a) ]
    | _ => []
    end) (range 2) /\
  (forall i a, (i < 2)%nat ->
     nth_error serial i = Some (Some a) ->
     nth_error camType i = Some None ->
     nodes_at (0x100 + Z.of_nat i * 0x100) d =
     [ ClinkChannel
         {| cl.name    := ("Ch[" ++ str i ++ "]")%string;
            cl.offset  := 0x100 + Z.of_nat i * 0x100;
            cl.serial  := a;
            cl.camType := None |} ]) /\
  (forall kw, In kw (channels d) ->
     exists i, (i < 2)%nat /\
       nth_error serial i = Some (Some (cl.serial kw)) /\
       nth_error camType i = Some (cl.camType kw)).
Proof.
  intros H.
  build_cases serial camType H;
    (split; [reflexivity|]);
    (split;
     [ intros [|[|i]] a Hi Hs Hc; try lia;
       simpl in Hs, Hc; try discriminate Hs;
       injection Hs as <-; injection Hc as ->; reflexivity
     | intros kw Hkw; simpl in Hkw;
       repeat (destruct Hkw as [<- | Hkw];
               [first [ exists 0%nat; split; [lia | split; reflexivity]
                      | exists 1%nat; split; [lia | split; reflexivity] ]|]);
       contradiction ]).
Qed.

(** *** Construction errors *)

(** C8, as the code has it: a serial list shorter than 2 makes the
    constructor raise IndexError; a longer one is not rejected, the
    constructor reads slots 0 and 1 and ignores the rest; with at least
    two slots in both lists (the well-formed two-slot input among them)
    the constructor returns a tree. *)
Theorem construction_errors n ds (serial : list (option Serial))
    (camType : list (option CamType)) :
  ((length serial < 2)%nat ->
     ClinkTop n ds serial camType = inl IndexError) /\
  ((2 <= length serial)%nat ->
     ClinkTop n ds serial camType =
     ClinkTop n ds (firstn 2 serial) camType) /\
  ((2 <= length serial)%nat -> (2 <= length camType)%nat ->
     exists d, ClinkTop n ds serial camType = inr d).
Proof.
  split; [|split].
  - intros Hlen.
    destruct serial as [|[s0|] [|s1 rest]]; simpl in Hlen; try lia;
      destruct camType as [|c0 crest];
      cbv -[pr.BaseCommand.toggle]; reflexivity.
  - intros Hlen.
    destruct serial as [|[s0|] [|[s1|] rest]]; simpl in Hlen; try lia;
      destruct camType as [|c0 [|c1 crest]];
      cbv -[pr.BaseCommand.toggle]; reflexivity.
  - intros Hs Hc.
    destruct serial as [|[s0|] [|[s1|] rest]]; simpl in Hs; try lia;
      destruct camType as [|c0 [|c1 crest]]; simpl in Hc; try lia;
      cbv -[pr.BaseCommand.toggle]; eexists; reflexivity.
Qed.

(** *** Reset methods *)

(** C2: on a built tree hardReset, softReset and countReset are the same
    operation: each runs the CntRst command once, which logs a write of 1
    and a write of 0 to bit 2 of the register at 0x04, leaves that bit
    cleared, changes no other bit of any register and so the value of no
    other field. *)
Theorem resets_pulse_CntRst n ds (serial : list (option Serial))
    (camType : list (option CamType)) (d : @Device Serial CamType)
    (hw : pr.Hw) :
  ClinkTop n ds serial camType = inr d ->
  hardReset d hw = softReset d hw /\
  softReset d hw = countReset d hw /\
  exists hw',
    countReset d hw = inr hw' /\
    hw' = pr.BaseCommand.toggle 0x04 2 1 hw /\
    pr.log hw' = pr.log hw ++ [pr.Write 0x04 2 1 1; pr.Write 0x04 2 1 0] /\
    Z.testbit (pr.mem hw' 0x04) 2 = false /\
    (forall a k, 0 <= k -> (a, k) <> (0x04, 2) ->
       Z.testbit (pr.mem hw' a) k = Z.testbit (pr.mem hw a) k) /\
    (forall f, In f (fields d) -> Field.name f <> "CntRst" ->
       pr.get (Field.byteOffset f) (Field.bitOffset f) (Field.bitWidth f) hw'
       = pr.get (Field.byteOffset f) (Field.bitOffset f) (Field.bitWidth f)
                hw).
Proof.
  intros H. split; [reflexivity | split; [reflexivity|]].
  exists (pr.BaseCommand.toggle 0x04 2 1 hw).
  split; [|split; [reflexivity | split; [apply toggle_log | split; [|split]]]].
  - build_cases serial camType H; reflexivity.
  - rewrite toggle_mem_bit by lia. reflexivity.
  - intros a k Hk Hne. rewrite toggle_mem_bit by lia.
    destruct (Z.eqb_spec a 0x04) as [-> | Ha];
      destruct (Z.leb_spec 2 k);
      destruct (Z.ltb_spec k (2 + 1)); cbn [andb]; try reflexivity.
    exfalso. apply Hne. f_equal. lia.
  - destruct (static_part _ _ _ _ _ H) as (_ & _ & _ & ->).
    intros f Hf Hname. cbv in Hf.
    repeat (destruct Hf as [<- | Hf];
            [first [ exfalso; apply Hname; reflexivity
                   | apply toggle_get_other; simpl; lia ]|]).
    contradiction.
Qed.

End Properties.

(** ** The theorems at a concrete tree *)

(** The sample input builds the sample tree. *)
Ltac sample_built :=
  assert (Hbuilt : ClinkTop default_name default_description
                            sample_serial sample_camType
                   = inr sample_device) by (cbv -[pr.BaseCommand.toggle]; reflexivity).

(** Slot 0 present with a camera type, slot 1 absent: one channel. *)
Lemma channel_per_present_slot_sample :
  length sample_serial = 2%nat /\ length sample_camType = 2%nat /\
  exists d,
    ClinkTop default_name default_description sample_serial sample_camType
    = inr d /\
    channels d =
    [ {| cl.name := "Ch[0]"; cl.offset := 0x100;
         cl.serial := 7%nat; cl.camType := Some "Opal1000" |} ].
Proof.
  split; [reflexivity | split; [reflexivity|]].
  destruct (channel_per_present_slot default_name default_description
              sample_serial sample_camType eq_refl eq_refl)
    as (d & Hd & _ & HAX & _).
  exists d. split; [exact Hd|].
  apply (HAX 7%nat "Opal1000"); reflexivity.
Defined.

(** The three resets on the sample tree, from an idle register file. *)
Lemma resets_pulse_CntRst_sample :
  ClinkTop default_name default_description sample_serial sample_camType
  = inr sample_device /\
  hardReset sample_device idle = softReset sample_device idle /\
  softReset sample_device idle = countReset sample_device idle /\
  exists hw',
    countReset sample_device idle = inr hw' /\
    pr.log hw' = [pr.Write 0x04 2 1 1; pr.Write 0x04 2 1 0].
Proof.
  sample_built. split; [exact Hbuilt|].
  destruct (resets_pulse_CntRst _ _ _ _ sample_device idle Hbuilt)
    as (H1 & H2 & hw' & Hrun & _ & Hlog & _).
  split; [exact H1 | split; [exact H2|]].
  exists hw'. split; [exact Hrun | exact Hlog].
Defined.

(** The bit ranges at 0x10 in the sample tree. *)
Lemma fields_fit_and_are_disjoint_sample :
  ClinkTop default_name default_description sample_serial sample_camType
  = inr sample_device /\
  map (fun f => (Field.bitOffset f, Field.bitWidth f))
      (filter (fun f => Field.byteOffset f =? 0x10) (fields sample_device)) =
  [(0, 1); (1, 1); (2, 1); (8, 8); (16, 8); (24, 8)].
Proof.
  sample_built. split; [exact Hbuilt|].
  exact (proj2 (proj2
    (fields_fit_and_are_disjoint _ _ _ _ sample_device Hbuilt))).
Defined.

(** The array elements of the sample tree. *)
Lemma frequency_arrays_sample :
  ClinkTop default_name default_description sample_serial sample_camType
  = inr sample_device /\
  map (fun kw => (pr.Var.name kw, pr.Var.offset kw))
      (array_elements sample_device) =
  [ ("ClkInFreq[0]", 0x1C); ("ClkInFreq[1]", 0x20); ("ClkInFreq[2]", 0x24);
    ("ClinkClkFreq[0]", 0x28); ("ClinkClkFreq[1]", 0x2C);
    ("ClinkClkFreq[2]", 0x30);
    ("ClinkClk7xFreq[0]", 0x34); ("ClinkClk7xFreq[1]", 0x38);
    ("ClinkClk7xFreq[2]", 0x3C) ].
Proof.
  sample_built. split; [exact Hbuilt|].
  exact (proj1 (frequency_arrays _ _ _ _ sample_device Hbuilt)).
Defined.

(** The clock managers of the sample tree. *)
Lemma three_clock_managers_sample :
  ClinkTop default_name default_description sample_serial sample_camType
  = inr sample_device /\
  clock_managers sample_device =
  [ {| xil.name := "Pll[0]"; xil.offset := 0x1000;
       xil.type := "MMCME2"; xil.expand := false |};
    {| xil.name := "Pll[1]"; xil.offset := 0x2000;
       xil.type := "MMCME2"; xil.expand := false |};
    {| xil.name := "Pll[2]"; xil.offset := 0x3000;
       xil.type := "MMCME2"; xil.expand := false |} ].
Proof.
  sample_built. split; [exact Hbuilt|].
  exact (three_clock_managers _ _ _ _ sample_device Hbuilt).
Defined.

(** The commands of the sample tree. *)
Lemma three_command_pulses_sample :
  ClinkTop default_name default_description sample_serial sample_camType
  = inr sample_device /\
  map (fun c => (pr.Cmd.name c, pr.Cmd.offset c,
                 pr.Cmd.bitOffset c, pr.Cmd.bitSize c))
      (commands sample_device) =
  [ ("ResetPll", 0x04, 0, 1); ("ResetFsm", 0x04, 1, 1);
    ("CntRst", 0x04, 2, 1) ].
Proof.
  sample_built. split; [exact Hbuilt|].
  exact (proj1 (three_command_pulses _ _ _ _ sample_device Hbuilt)).
Defined.

(** The children at 0x10 in the sample tree. *)
Lemma link_locked_register_sample :
  ClinkTop default_name default_description sample_serial sample_camType
  = inr sample_device /\
  map node_name (nodes_at 0x10 sample_device) =
  [ "LinkLockedA"; "LinkLockedB"; "LinkLockedC";
    "LinkLockedCntA"; "LinkLockedCntB"; "LinkLockedCntC" ].
Proof.
  sample_built. split; [exact Hbuilt|].
  exact (proj2 (proj2
    (link_locked_register _ _ _ _ sample_device Hbuilt))).
Defined.

(** An empty serial list, a three-slot one and the sample input. *)
Lemma construction_errors_sample :
  ((length (@nil (option nat)) < 2)%nat /\
   @ClinkTop nat string default_name default_description [] []
   = inl IndexError) /\
  ((2 <= length [None; None; Some 7%nat])%nat /\
   @ClinkTop nat string default_name default_description
     [None; None; Some 7%nat] [None; None]
   = ClinkTop default_name default_description
       (firstn 2 [None; None; Some 7%nat]) [None; None]) /\
  ((2 <= length sample_serial)%nat /\ (2 <= length sample_camType)%nat /\
   exists d,
     ClinkTop default_name default_description sample_serial sample_camType
     = inr d).
Proof.
  split; [|split].
  - assert (H : (length (@nil (option nat)) < 2)%nat) by (simpl; lia).
    split; [exact H|].
    exact (proj1 (construction_errors default_name default_description
                    [] []) H).
  - assert (H : (2 <= length [@None nat; None; Some 7%nat])%nat)
      by (simpl; lia).
    split; [exact H|].
    exact (proj1 (proj2 (construction_errors default_name
                           default_description
                           [None; None; Some 7%nat] [None; None])) H).
  - assert (H1 : (2 <= length sample_serial)%nat) by (simpl; lia).
    assert (H2 : (2 <= length sample_camType)%nat) by (simpl; lia).
    split; [exact H1 | split; [exact H2|]].
    exact (proj2 (proj2 (construction_errors default_name
                           default_description
                           sample_serial sample_camType)) H1 H2).
Defined.

(** A serial list of three slots is not of length 2, and the constructor
    does not raise on it: the third slot is never read. *)
Lemma longer_serial_is_not_rejected :
  length [@None nat; None; Some 7%nat] <> 2%nat /\
  ~ (exists e,
       @ClinkTop nat string default_name default_description
         [None; None; Some 7%nat] [None; None] = inl e).
Proof.
  split; [discriminate|].
  intros [e He]. cbv -[pr.BaseCommand.toggle] in He. discriminate He.
Qed.

(** Slot 0 present without a camera type: the channel is built with None. *)
Lemma channel_presence_from_serial_sample :
  ClinkTop default_name default_description
           sample_serial sample_camType_absent
  = inr sample_device_untyped /\
  nodes_at 0x100 sample_device_untyped =
  [ ClinkChannel
      {| cl.name := "Ch[0]"; cl.offset := 0x100;
         cl.serial := 7%nat; cl.camType := None |} ].
Proof.
  assert (H : ClinkTop default_name default_description
                       sample_serial sample_camType_absent
              = inr sample_device_untyped) by (cbv -[pr.BaseCommand.toggle]; reflexivity).
  split; [exact H|].
  apply (proj1 (proj2 (channel_presence_from_serial _ _ _ _ _ H))
           0%nat 7%nat); [lia | reflexivity | reflexivity].
Defined.

(** ChanCount in the sample tree has no poll interval. *)
Lemma poll_intervals_sample :
  ClinkTop default_name default_description sample_serial sample_camType
  = inr sample_device /\
  map pr.Var.pollInterval
      (filter (fun kw => String.eqb (pr.Var.name kw) "ChanCount")
              (variables sample_device)) = [None].
Proof.
  sample_built. split; [exact Hbuilt|].
  exact (proj2 (proj2 (proj2
    (poll_intervals _ _ _ _ sample_device Hbuilt)))).
Defined.

(** ** More on the constructor *)

Section Constructor.

Context {Serial CamType : Type}.

Ltac slot_cases serial camType :=
  destruct serial as [|[?s|] [|[?s|] ?rest]];
  destruct camType as [|?c [|?c ?crest]].

Ltac run H := cbv -[pr.BaseCommand.toggle] in H.

(** With distinct names, a child is the first and only match of its own
    name. *)
Lemma find_by_name (l : list (@Node Serial CamType)) nd :
  NoDup (map node_name l) -> In nd l ->
  find (fun n => String.eqb (node_name n) (node_name nd)) l = Some nd.
Proof.
  induction l as [|x l IH]; intros Hnd Hin; [contradiction|].
  simpl in Hnd. inversion Hnd as [|? ? Hx Hl]; subst.
  simpl. destruct Hin as [-> | Hin].
  - now rewrite String.eqb_refl.
  - destruct (String.eqb_spec (node_name x) (node_name nd)) as [Heq | _].
    + exfalso. apply Hx. rewrite Heq. now apply in_map.
    + now apply IH.
Qed.

(** X1: the children of a built tree have pairwise distinct names, and
    attribute lookup under a child's name returns that very child. *)
Theorem children_found_by_name n ds (serial : list (option Serial))
    (camType : list (option CamType)) (d : @Device Serial CamType) :
  ClinkTop n ds serial camType = inr d ->
  NoDup (map node_name (nodes d)) /\
  (forall nd, In nd (nodes d) -> getattr d (node_name nd) = inr nd).
Proof.
  intros H.
  pose proof (built_names_distinct _ _ _ _ _ H) as Hnd.
  split; [exact Hnd|].
  intros nd Hin. unfold getattr.
  now rewrite (find_by_name _ _ Hnd Hin).
Qed.

(** X2: the constructor returns a tree exactly when [serial] has at least
    two slots and [camType] has an entry at every index 0, 1 whose serial
    slot is present.  When it raises, it raises IndexError. *)
Theorem construction_succeeds_iff n ds (serial : list (option Serial))
    (camType : list (option CamType)) :
  ((exists d, ClinkTop n ds serial camType = inr d) <->
   (2 <= length serial)%nat /\
   (forall i a, (i < 2)%nat -> nth_error serial i = Some (Some a) ->
      (i < length camType)%nat)) /\
  (forall e, ClinkTop n ds serial camType = inl e -> e = IndexError).
Proof.
  split.
  - split.
    + intros [d H].
      slot_cases serial camType; run H; try discriminate H;
        (split; [simpl; lia|]);
        intros [|[|i]] a Hi Hs; simpl in Hs |- *;
        try lia; discriminate Hs.
    + intros [Hlen Hc].
      pose proof (Hc 0%nat) as Hc0. pose proof (Hc 1%nat) as Hc1.
      slot_cases serial camType; simpl in Hlen, Hc0, Hc1; try lia;
        try (specialize (Hc0 _ ltac:(lia) eq_refl); lia);
        try (specialize (Hc1 _ ltac:(lia) eq_refl); lia);
        eexists; cbv -[pr.BaseCommand.toggle]; reflexivity.
  - intros e H.
    slot_cases serial camType; run H; congruence.
Qed.

(** X3: the result of the constructor depends on [serial] through slots 0
    and 1 only, and on [camType] only at the indices whose serial slot is
    present: inputs that agree there give the same result, tree or
    exception. *)
Theorem construction_reads_only_its_slots n ds
    (serial serial' : list (option Serial))
    (camType camType' : list (option CamType)) :
  nth_error serial 0 = nth_error serial' 0 ->
  nth_error serial 1 = nth_error serial' 1 ->
  (forall i a, (i < 2)%nat -> nth_error serial i = Some (Some a) ->
     nth_error camType i = nth_error camType' i) ->
  ClinkTop n ds serial camType = ClinkTop n ds serial' camType'.
Proof.
  intros H0 H1 Hc.
  pose proof (Hc 0%nat) as Hc0. pose proof (Hc 1%nat) as Hc1.
  clear Hc.
  destruct serial as [|s0 [|s1 r]], serial' as [|s0' [|s1' r']];
    simpl in H0, H1, Hc0, Hc1; try discriminate H0; try discriminate H1;
    try (injection H0 as <-); try (injection H1 as <-).
  - cbv -[pr.BaseCommand.toggle]. reflexivity.
  - destruct s0 as [a0|].
    + specialize (Hc0 a0 ltac:(lia) eq_refl).
      destruct camType as [|c0 cr], camType' as [|c0' cr'];
        simpl in Hc0; try discriminate Hc0;
        cbv -[pr.BaseCommand.toggle]; reflexivity.
    + cbv -[pr.BaseCommand.toggle]. reflexivity.
  - destruct s0 as [a0|], s1 as [a1|];
      try (specialize (Hc0 _ ltac:(lia) eq_refl));
      try (specialize (Hc1 _ ltac:(lia) eq_refl));
      destruct camType as [|c0 [|c1 cr]], camType' as [|c0' [|c1' cr']];
      simpl in Hc0, Hc1;
      try discriminate Hc0; try discriminate Hc1;
      try (injection Hc0 as <-); try (injection Hc1 as <-);
      cbv -[pr.BaseCommand.toggle]; reflexivity.
Qed.

(** X4: the children of a built tree come in three blocks: first the 25
    variables and commands, then the channels, then the three clock
    managers; there are never more than two channels. *)
Theorem children_in_three_blocks n ds (serial : list (option Serial))
    (camType : list (option CamType)) (d : @Device Serial CamType) :
  ClinkTop n ds serial camType = inr d ->
  nodes d = registers d ++ map ClinkChannel (channels d)
                        ++ map ClockManager (clock_managers d) /\
  length (registers d) = 25%nat /\
  (length (channels d) <= 2)%nat /\
  length (nodes d) = (28 + length (channels d))%nat.
Proof.
  intros H.
  slot_cases serial camType; run H; try discriminate H;
    injection H as <-; cbv -[pr.BaseCommand.toggle Nat.le];
    repeat split; repeat constructor.
Qed.

(** X5: in a built tree every field's register is word aligned and lies
    in the block 0x00..0x3F, every nested device has a base offset that
    is a multiple of 0x100 and at least 0x100, and no two nested devices
    share a base offset. *)
Theorem address_map_is_separated n ds (serial : list (option Serial))
    (camType : list (option CamType)) (d : @Device Serial CamType) :
  ClinkTop n ds serial camType = inr d ->
  (forall f, In f (fields d) ->
     Field.byteOffset f mod 4 = 0 /\
     0 <= Field.byteOffset f /\ Field.byteOffset f + 4 <= 0x40) /\
  (forall o, In o (subdevice_offsets d) ->
     o mod 0x100 = 0 /\ 0x100 <= o) /\
  NoDup (subdevice_offsets d).
Proof.
  intros H. split; [|split].
  - destruct (static_part _ _ _ _ _ H) as (_ & _ & _ & ->).
    intros f Hf. cbv in Hf.
    repeat (destruct Hf as [<- | Hf];
            [simpl; repeat split; (reflexivity || lia)|]).
    contradiction.
  - intros o Ho.
    slot_cases serial camType; run H; try discriminate H;
      injection H as <-; cbv in Ho;
      repeat (destruct Ho as [<- | Ho]; [split; [reflexivity | lia]|]);
      contradiction.
  - slot_cases serial camType; run H; try discriminate H;
      injection H as <-; cbv [subdevice_offsets nodes flat_map is_register
                              node_offset cl.offset xil.offset app];
      repeat (constructor; [simpl; intuition discriminate|]); constructor.
Qed.

(** X6: no variable of a built tree is writable: every one is declared
    read-only, so the three commands are the only children that write. *)
Theorem variables_are_read_only n ds (serial : list (option Serial))
    (camType : list (option CamType)) (d : @Device Serial CamType) :
  ClinkTop n ds serial camType = inr d ->
  forall kw, In kw (variables d) -> pr.Var.mode kw = pr.RO.
Proof.
  intros H. destruct (static_part _ _ _ _ _ H) as (-> & _).
  intros kw Hkw. cbv in Hkw.
  repeat (destruct Hkw as [<- | Hkw]; [reflexivity|]).
  contradiction.
Qed.


(** *** Resets in sequence *)

(** On a built tree a reset is one toggle of CntRst. *)
Lemma reset_runs_toggle n ds (serial : list (option Serial))
    (camType : list (option CamType)) (d : @Device Serial CamType) hw :
  ClinkTop n ds serial camType = inr d ->
  invoke d "CntRst" hw = inr (pr.BaseCommand.toggle 0x04 2 1 hw).
Proof.
  intros H.
  slot_cases serial camType; run H; try discriminate H;
    injection H as <-; reflexivity.
Qed.

(** X8: on a built tree, a reset followed by another reset (whichever of
    the three names is used) succeeds, leaves every bit of every register
    as the first reset left it, and has logged four writes to bit 2 of
    0x04: 1, 0, 1, 0. *)
Theorem second_reset_changes_nothing n ds (serial : list (option Serial))
    (camType : list (option CamType)) (d : @Device Serial CamType)
    (hw : pr.Hw) :
  ClinkTop n ds serial camType = inr d ->
  exists hw1 hw2,
    hardReset d hw = inr hw1 /\
    softReset d hw1 = inr hw2 /\
    countReset d hw1 = inr hw2 /\
    hardReset d hw1 = inr hw2 /\
    (forall a k, 0 <= k ->
       Z.testbit (pr.mem hw2 a) k = Z.testbit (pr.mem hw1 a) k) /\
    pr.log hw2 =
    pr.log hw ++ [ pr.Write 0x04 2 1 1; pr.Write 0x04 2 1 0;
                   pr.Write 0x04 2 1 1; pr.Write 0x04 2 1 0 ].
Proof.
  intros H.
  exists (pr.BaseCommand.toggle 0x04 2 1 hw),
         (pr.BaseCommand.toggle 0x04 2 1 (pr.BaseCommand.toggle 0x04 2 1 hw)).
  unfold hardReset, softReset, countReset.
  rewrite !(reset_runs_toggle _ _ _ _ _ _ H).
  repeat (split; [reflexivity|]).
  split.
  - intros a k Hk. rewrite !toggle_mem_bit by lia.
    destruct ((a =? 4) && (2 <=? k) && (k <? 2 + 1)); reflexivity.
  - rewrite !toggle_log, <- app_assoc. reflexivity.
Qed.

End Constructor.

(** ** The further theorems at concrete inputs *)

(** Every child of the sample tree is found under its name. *)
Lemma children_found_by_name_sample :
  ClinkTop default_name default_description sample_serial sample_camType
  = inr sample_device /\
  NoDup (map node_name (nodes sample_device)) /\
  (forall nd, In nd (nodes sample_device) ->
     getattr sample_device (node_name nd) = inr nd).
Proof.
  sample_built. split; [exact Hbuilt|].
  exact (children_found_by_name _ _ _ _ sample_device Hbuilt).
Defined.

(** The sample input meets the condition and builds; a present slot 0
    without any camera-type entry does not. *)
Lemma construction_succeeds_iff_sample :
  ((2 <= length sample_serial)%nat /\
   exists d,
     ClinkTop default_name default_description sample_serial sample_camType
     = inr d) /\
  ~ (exists d,
       @ClinkTop nat string default_name default_description
         sample_serial [] = inr d).
Proof.
  split.
  - split; [simpl; lia|].
    apply (proj1 (construction_succeeds_iff default_name
                    default_description sample_serial sample_camType)).
    split; [simpl; lia|].
    intros [|[|i]] a Hi Hs; simpl in Hs |- *; try lia; discriminate Hs.
  - intros Hex.
    apply (proj1 (construction_succeeds_iff default_name
                    default_description sample_serial [])) in Hex.
    destruct Hex as [_ Hc].
    specialize (Hc 0%nat 7%nat ltac:(lia) eq_refl). simpl in Hc. lia.
Defined.

(** A third serial slot and a missing camera type for the absent slot
    change nothing. *)
Lemma construction_reads_only_its_slots_sample :
  nth_error sample_serial 0 = nth_error sample_serial_long 0 /\
  nth_error sample_serial 1 = nth_error sample_serial_long 1 /\
  ClinkTop default_name default_description sample_serial sample_camType
  = ClinkTop default_name default_description
             sample_serial_long sample_camType_short.
Proof.
  split; [reflexivity | split; [reflexivity|]].
  apply construction_reads_only_its_slots; [reflexivity | reflexivity |].
  intros [|[|i]] a Hi Hs; simpl in Hs |- *; try lia;
    first [discriminate Hs | reflexivity].
Defined.

(** The sample tree: 25 registers, one channel, three clock managers. *)
Lemma children_in_three_blocks_sample :
  ClinkTop default_name default_description sample_serial sample_camType
  = inr sample_device /\
  length (nodes sample_device) = (28 + length (channels sample_device))%nat.
Proof.
  sample_built. split; [exact Hbuilt|].
  exact (proj2 (proj2 (proj2
    (children_in_three_blocks _ _ _ _ sample_device Hbuilt)))).
Defined.

(** The nested devices of the sample tree have distinct base offsets. *)
Lemma address_map_is_separated_sample :
  ClinkTop default_name default_description sample_serial sample_camType
  = inr sample_device /\
  NoDup (subdevice_offsets sample_device).
Proof.
  sample_built. split; [exact Hbuilt|].
  exact (proj2 (proj2
    (address_map_is_separated _ _ _ _ sample_device Hbuilt))).
Defined.

(** The variables of the sample tree are read-only. *)
Lemma variables_are_read_only_sample :
  ClinkTop default_name default_description sample_serial sample_camType
  = inr sample_device /\
  (forall kw, In kw (variables sample_device) -> pr.Var.mode kw = pr.RO).
Proof.
  sample_built. split; [exact Hbuilt|].
  exact (variables_are_read_only _ _ _ _ sample_device Hbuilt).
Defined.

(** Two resets of the sample tree from an idle register file. *)
Lemma second_reset_changes_nothing_sample :
  ClinkTop default_name default_description sample_serial sample_camType
  = inr sample_device /\
  exists hw1 hw2,
    hardReset sample_device idle = inr hw1 /\
    softReset sample_device hw1 = inr hw2 /\
    pr.log hw2 =
    [ pr.Write 0x04 2 1 1; pr.Write 0x04 2 1 0;
      pr.Write 0x04 2 1 1; pr.Write 0x04 2 1 0 ].
Proof.
  sample_built. split; [exact Hbuilt|].
  destruct (second_reset_changes_nothing _ _ _ _ sample_device idle Hbuilt)
    as (hw1 & hw2 & H1 & H2 & _ & _ & _ & Hlog).
  exists hw1, hw2. split; [exact H1 | split; [exact H2 | exact Hlog]].
Defined.
